(** * Vector search service (Backend/vector-service/app.py)

    A shallow embedding of the FastAPI service that answers nearest-neighbour
    queries against a prebuilt FAISS index, and the properties of its
    request-time path: validation, L2 normalisation, index lookup and the
    join of index positions with the metadata catalogue. *)

From Stdlib Require Import ZArith List String Ascii Bool Lia Sorted.
From Stdlib Require Import SpecFloat DecimalString DecimalPos DecimalZ.
Import ListNotations.

Set Warnings "-register-all".

Local Open Scope string_scope.
Local Open Scope list_scope.
Local Open Scope Z_scope.

(** ** IEEE 754 values

    Python floats are binary64 and the query array is [np.float32]
    (binary32).  Both are carried by [spec_float], the format-independent
    datum of the Standard Library, with the operations instantiated at the
    precision and exponent range of each format. *)

Module IEEE.

Definition float := spec_float.

Definition prec32 : Z := 24.
Definition emax32 : Z := 128.
Definition prec64 : Z := 53.
Definition emax64 : Z := 1024.

(** Conversion to a format: round to nearest even, overflow to infinity.
    This is what [np.asarray(..., dtype=np.float32)] does to each Python
    float, and (exactly, no rounding happens) what [.tolist()] and
    [float(...)] do to each [np.float32]. *)
Definition convert (prec emax : Z) (x : float) : float :=
  match x with
  | S754_finite s m e => binary_round prec emax s m e
  | _ => x
  end.

Definition to_f32 : float -> float := convert prec32 emax32.
Definition to_f64 : float -> float := convert prec64 emax64.

(** [np.isfinite] on one element. *)
Definition isfinite (x : float) : bool :=
  match x with
  | S754_zero _ | S754_finite _ _ _ => true
  | S754_infinity _ | S754_nan => false
  end.

(** Python's [x == 0] for a float [x]. *)
Definition eq_zero (x : float) : bool := SFeqb x (S754_zero false).

(** Python's [a >= b] on floats. *)
Definition geb (a b : float) : bool := SFleb b a.

Definition div32 : float -> float -> float := SFdiv prec32 emax32.
Definition mul32 : float -> float -> float := SFmul prec32 emax32.
Definition add32 : float -> float -> float := SFadd prec32 emax32.
Definition sqrt32 : float -> float := SFsqrt prec32 emax32.

(** Truncation toward zero of a finite value, Python's [int(x)] on a
    float; [None] on infinities and NaN, where [int] raises. *)
Definition trunc (x : float) : option Z :=
  match x with
  | S754_zero _ => Some 0
  | S754_finite s m e =>
      let a := match e with
               | Zneg p => Z.shiftr (Zpos m) (Zpos p)
               | _ => Z.shiftl (Zpos m) e
               end in
      Some (if s then - a else a)
  | S754_infinity _ | S754_nan => None
  end.

(** Literals for examples: the binary64 value of an integer. *)
Definition of_Z (n : Z) : float := binary_normalize prec64 emax64 n 0 false.

End IEEE.

Import IEEE.

(** ** Python values *)

(** What [json.loads] produces.  A dict is an association list (the loader
    keeps one binding per key); Python's [None] is [JNull]. *)
Inductive json : Type :=
| JNull
| JBool (b : bool)
| JInt (n : Z)
| JFloat (x : float)
| JStr (s : string)
| JList (l : list json)
| JDict (d : list (string * json)).

Definition dict := list (string * json).

(** [d.get(key)]: the value bound to [key], [None] when there is none. *)
Fixpoint get (d : dict) (key : string) : json :=
  match d with
  | [] => JNull
  | (k, v) :: d' => if String.eqb k key then v else get d' key
  end.

(** [key in d]. *)
Fixpoint contains (d : dict) (key : string) : bool :=
  match d with
  | [] => false
  | (k, _) :: d' => String.eqb k key || contains d' key
  end.

(** [len(l)]. *)
Definition len {A : Type} (l : list A) : Z := Z.of_nat (List.length l).

(** [bool(v)], the truth value that [or] tests. *)
Definition truthy (v : json) : bool :=
  match v with
  | JNull => false
  | JBool b => b
  | JInt n => negb (n =? 0)
  | JFloat x => negb (eq_zero x)
  | JStr s => negb (String.eqb s "")
  | JList l => match l with [] => false | _ => true end
  | JDict d => match d with [] => false | _ => true end
  end.

(** [a or b]. *)
Definition py_or (a b : json) : json := if truthy a then a else b.

(** [str(n)] for an integer. *)
Definition str (n : Z) : string := NilZero.string_of_int (Z.to_int n).

(** Exceptions.  [HTTPException] is the only one the handler raises on
    purpose; the others escape from builtins and libraries. *)
Inductive exn : Type :=
| HTTPException (status_code : Z) (detail : string)
| RequestValidationError
| RuntimeError (msg : string)
| FileNotFoundError (msg : string)
| ValueError (msg : string)
| TypeError
| OverflowError
| IndexError
| LibraryError (msg : string).

(** ** The libraries the service is linked against

    NumPy's norm, the FAISS index and a few builtins are not part of the
    service: they are an interface the handler is written against. *)
Class Library : Type := {
  (** the object [faiss.read_index] returns *)
  Index : Type;
  (** [int(s)] on a string; [None] when it raises [ValueError] *)
  int_of_str : string -> option Z;
  (** [s.strip()] *)
  strip : string -> string;
  (** [Path(s).expanduser().resolve()] *)
  resolve : string -> string;
  (** [json.loads] *)
  json_loads : string -> exn + json;
  (** [faiss.read_index], from the bytes of the file *)
  read_index : string -> exn + Index;
  (** [np.linalg.norm] of a one-dimensional float32 array *)
  np_linalg_norm : list float -> float;
  (** [index.search(q, k)]: the distance and the position matrices *)
  faiss_search : Index -> list (list float) -> Z ->
                 exn + (list (list float) * list (list Z))
}.

Section Service.

Context {lib : Library}.

(** [int(v)]. *)
Definition int (v : json) : exn + Z :=
  match v with
  | JNull => inl TypeError
  | JBool b => inr (if b then 1 else 0)
  | JInt n => inr n
  | JFloat x =>
      match trunc x with
      | Some n => inr n
      | None => inl (match x with S754_nan => ValueError "cannot convert float NaN to integer"
                              | _ => OverflowError end)
      end
  | JStr s =>
      match int_of_str s with
      | Some n => inr n
      | None => inl (ValueError "invalid literal for int()")
      end
  | JList _ | JDict _ => inl TypeError
  end.

(** ** Programs that call into the libraries

    The two calls whose answer the handler cannot compute itself are nodes
    of the program, so that a run records which calls were made and with
    which arguments. *)
Inductive call : Type -> Type :=
| linalg_norm (q : list float) : call float
| index_search (index : Index) (q : list (list float)) (k : Z) :
    call (exn + (list (list float) * list (list Z))).

Inductive prog (A : Type) : Type :=
| Return (a : A)
| Raise (e : exn)
| Call {R : Type} (c : call R) (k : R -> prog A).

Arguments Return {A} a.
Arguments Raise {A} e.
Arguments Call {A R} c k.

Fixpoint bind {A B : Type} (p : prog A) (f : A -> prog B) : prog B :=
  match p with
  | Return a => f a
  | Raise e => Raise e
  | Call c k => Call c (fun r => bind (k r) f)
  end.

Definition lift {A : Type} (r : exn + A) : prog A :=
  match r with
  | inl e => Raise e
  | inr a => Return a
  end.

Notation "x <- p ;; q" := (bind p (fun x => q))
  (at level 61, p at next level, right associativity).
Notation "' pat <- p ;; q" := (bind p (fun x => match x with pat => q end))
  (at level 61, pat pattern, p at next level, right associativity).

(** One recorded call. *)
Inductive event : Type :=
| norm_called (q : list float)
| search_called (index : Index) (q : list (list float)) (k : Z).

Definition event_of {R : Type} (c : call R) : event :=
  match c with
  | linalg_norm q => norm_called q
  | index_search index q k => search_called index q k
  end.

Definition answer {R : Type} (c : call R) : R :=
  match c with
  | linalg_norm q => np_linalg_norm q
  | index_search index q k => faiss_search index q k
  end.

(** Running a program against the library: the calls made, in order, and
    the outcome. *)
Fixpoint run {A : Type} (p : prog A) : list event * (exn + A) :=
  match p with
  | Return a => ([], inr a)
  | Raise e => ([], inl e)
  | Call c k => let (t, o) := run (k (answer c)) in (event_of c :: t, o)
  end.

Definition is_search (ev : event) : bool :=
  match ev with
  | search_called _ _ _ => true
  | norm_called _ => false
  end.

(** ** Process state and startup *)

(** What the process can observe of its surroundings at startup. *)
Record World : Type := {
  (** [os.environ.get] *)
  environ : string -> option string;
  (** [Path.exists] *)
  path_exists : string -> bool;
  (** [Path.read_text(encoding="utf-8")] *)
  read_text : string -> string;
  (** the bytes of a file, as [faiss.read_index] reads them *)
  read_bytes : string -> string
}.

(** [p / name] on paths. *)
Definition path_join (p name : string) : string :=
  String.append p (String.append "/" name).

Definition missing_path_msg : string :=
  "Missing LOCAL_DATA_PATH. Set LOCAL_DATA_PATH to the folder containing index/faiss.index + index/meta.json".

Definition missing_assets_msg : string :=
  "Missing index assets (faiss.index/meta.json). Run: python build_index.py (in vector-service/)".

Definition _data_dir (w : World) : exn + string :=
  match environ w "LOCAL_DATA_PATH" with
  | None => inl (RuntimeError missing_path_msg)
  | Some raw =>
      if String.eqb raw "" || String.eqb (strip raw) ""
      then inl (RuntimeError missing_path_msg)
      else inr (path_join (resolve raw) "index")
  end.

Definition _load_assets (w : World) : exn + (Index * dict) :=
  match _data_dir w with
  | inl e => inl e
  | inr data_dir =>
      let index_path := path_join data_dir "faiss.index" in
      let meta_path := path_join data_dir "meta.json" in
      if negb (path_exists w index_path) || negb (path_exists w meta_path)
      then inl (FileNotFoundError missing_assets_msg)
      else
        match read_index (read_bytes w index_path) with
        | inl e => inl e
        | inr index =>
            match json_loads (read_text w meta_path) with
            | inl e => inl e
            | inr meta =>
                match meta with
                | JDict d =>
                    if negb (contains d "items")
                    then inl (ValueError "meta.json must be an object with an 'items' field")
                    else inr (index, d)
                | _ => inl (ValueError "meta.json must be an object with an 'items' field")
                end
            end
        end
  end.

(** The two module globals. *)
Record State : Type := {
  _INDEX : option Index;
  _META : option dict
}.

(** The globals as the module body leaves them. *)
Definition uninitialized : State := {| _INDEX := None; _META := None |}.

(** The service is Ready once both globals are set. *)
Definition ready (st : State) : bool :=
  match _INDEX st, _META st with
  | Some _, Some _ => true
  | _, _ => false
  end.

(** The startup hook: the globals are assigned only if the load returns;
    when it raises, the exception leaves the hook and the globals are as
    they were. *)
Definition _startup (w : World) (st : State) : State * option exn :=
  match _load_assets w with
  | inl e => (st, Some e)
  | inr (index, meta) => ({| _INDEX := Some index; _META := Some meta |}, None)
  end.

(** ** Requests *)

Record SearchRequest : Type := {
  vector : list float;
  topK : Z
}.

(** The body of a POST, before the request model is built: [topK] may be
    left out. *)
Record Body : Type := {
  body_vector : list float;
  body_topK : option Z
}.

(** Construction of the request model: [topK] defaults to 50 and is
    constrained by [ge=1, le=200]; a body outside the constraint is
    refused before the handler is called. *)
Definition validate (b : Body) : exn + SearchRequest :=
  let k := match body_topK b with Some k => k | None => 50 end in
  if (1 <=? k) && (k <=? 200)
  then inr {| vector := body_vector b; topK := k |}
  else inl RequestValidationError.

(** [GET /health]. *)
Definition health : json := JDict [("status", JStr "ok")].

(** ** The search handler *)

(** [np.asarray(v, dtype=np.float32)]; a list of floats always gives a
    one-dimensional array, so [q.ndim] is 1 and [q.shape[0]] its length. *)
Definition asarray (v : list float) : list float := map to_f32 v.

(** [q / norm], a float32 array divided by a Python float: the scalar is
    taken to float32 and the division is elementwise. *)
Definition divide (q : list float) (norm : float) : list float :=
  map (fun x => div32 x (to_f32 norm)) q.

(** [a.reshape(1, dim)] on a one-dimensional array of length [dim]. *)
Definition reshape (q : list float) : list (list float) := [q].

(** [a.tolist()] on a row of float32. *)
Definition tolist (row : list float) : list float := map to_f64 row.

(** [m[0]] on a matrix given by its rows. *)
Definition row0 {A : Type} (m : list (list A)) : exn + list A :=
  match m with
  | [] => inl IndexError
  | r :: _ => inr r
  end.

(** [items[idx]] for [0 <= idx < len(items)]. *)
Definition getitem (items : list json) (idx : Z) : json :=
  nth (Z.to_nat idx) items JNull.

(** The dict literal appended for one neighbour. *)
Definition result (m : dict) (score : float) : json :=
  JDict [ ("imdbId", get m "imdbId");
          ("id", get m "id");
          ("title", get m "title");
          ("year", get m "year");
          ("genre", get m "genre");
          ("productionCountry", get m "productionCountry");
          ("keywords", get m "keywords");
          ("moodTags", get m "moodTags");
          ("score", JFloat score);
          ("similarity", JFloat score) ].

(** [items[idx] if isinstance(items[idx], dict) else {}]. *)
Definition record (items : list json) (idx : Z) : dict :=
  match getitem items idx with
  | JDict d => d
  | _ => []
  end.

(** One turn of the loop over [zip(distances[0].tolist(), indices[0].tolist())];
    [score] is a Python float already, [float(score)] is [score]. *)
Definition step (items : list json) (results : list json) (p : float * Z) : list json :=
  let '(score, idx) := p in
  if (idx <? 0) || (idx >=? len items) then results
  else
    let m := record items idx in
    results ++ [result m score].

Definition join (items : list json) (pairs : list (float * Z)) : list json :=
  fold_left (step items) pairs [].

Definition search (st : State) (req : SearchRequest) : prog json :=
  match _INDEX st, _META st with
  | Some index, Some meta =>
      match get meta "items" with
      | JList items =>
          dim <- lift (int (py_or (get meta "dim") (JInt 0))) ;;
          if dim <=? 0
          then Raise (HTTPException 500 "Invalid vector dim in meta.json")
          else
            let q := asarray (vector req) in
            if negb (len q =? dim)
            then Raise (HTTPException 400 (String.append "vector must have length " (str dim)))
            else if negb (forallb isfinite q)
            then Raise (HTTPException 400 "vector contains non-finite values")
            else
              n <- Call (linalg_norm q) Return ;;
              let norm := to_f64 n in
              if eq_zero norm
              then Raise (HTTPException 400 "vector norm is 0")
              else
                let q := reshape (divide q norm) in
                let k := Z.min (Z.max 1 (topK req)) (len items) in
                found <- Call (index_search index q k) lift ;;
                let '(distances, indices) := found in
                d0 <- lift (row0 distances) ;;
                i0 <- lift (row0 indices) ;;
                Return (JDict [("results", JList (join items (combine (tolist d0) i0)))])
      | _ => Raise (HTTPException 500 "Invalid meta.json")
      end
  | _, _ => Raise (HTTPException 500 "Index not loaded")
  end.

(** [POST /search]: the request model is built from the body, then the
    handler runs. *)
Definition post_search (st : State) (b : Body) : prog json :=
  req <- lift (validate b) ;;
  search st req.

(** ** Vocabulary of the properties *)

(** The service is Ready with a catalogue [items] and a declared dimension
    [dim]: both globals are set and the first guards of the handler pass. *)
Definition serving (st : State) (index : Index) (meta : dict)
           (items : list json) (dim : Z) : Prop :=
  _INDEX st = Some index /\ _META st = Some meta /\
  get meta "items" = JList items /\
  int (py_or (get meta "dim") (JInt 0)) = inr dim /\ 0 < dim.

(** The norm the handler obtains for the query of a request. *)
Definition query_norm (req : SearchRequest) : float :=
  to_f64 (np_linalg_norm (asarray (vector req))).

(** The query handed to the index. *)
Definition normalized (req : SearchRequest) : list (list float) :=
  reshape (divide (asarray (vector req)) (query_norm req)).

(** The K handed to the index. *)
Definition effective_k (items : list json) (req : SearchRequest) : Z :=
  Z.min (Z.max 1 (topK req)) (len items).

(** The three input checks all pass. *)
Definition accepted (dim : Z) (req : SearchRequest) : bool :=
  (len (vector req) =? dim) &&
  forallb isfinite (asarray (vector req)) &&
  negb (eq_zero (query_norm req)).

(** The (score, position) pairs the loop runs over: what the index
    answers for this request, first row of each matrix, zipped. *)
Definition neighbours (index : Index) (items : list json) (req : SearchRequest)
  : exn + list (float * Z) :=
  match faiss_search index (normalized req) (effective_k items req) with
  | inl e => inl e
  | inr (distances, indices) =>
      match row0 distances, row0 indices with
      | inr d0, inr i0 => inr (combine (tolist d0) i0)
      | inl e, _ => inl e
      | _, inl e => inl e
      end
  end.

(** A position the catalogue has a record for. *)
Definition in_range (items : list json) (p : float * Z) : bool :=
  (0 <=? snd p) && (snd p <? len items).

(** The result object of a pair. *)
Definition emit (items : list json) (p : float * Z) : json :=
  result (record items (snd p)) (fst p).

(** The [score] of a result object, when it is a float. *)
Definition score (r : json) : option float :=
  match r with
  | JDict d => match get d "score" with JFloat x => Some x | _ => None end
  | _ => None
  end.

(** Scores in non-increasing order: every score is [>=] all later ones. *)
Definition non_increasing (l : list float) : Prop :=
  StronglySorted (fun a b => geb a b = true) l.

(** The metadata document is an object with an [items] key: what the
    loader checks. *)
Definition has_items_field (doc : json) : bool :=
  match doc with
  | JDict d => contains d "items"
  | _ => false
  end.

(** The metadata document is an object whose [items] is an array. *)
Definition has_items_array (doc : json) : bool :=
  match doc with
  | JDict d => match get d "items" with JList _ => true | _ => false end
  | _ => false
  end.

(** The result object of a record without any of the fields. *)
Definition null_result (x : float) : json :=
  JDict [ ("imdbId", JNull); ("id", JNull); ("title", JNull); ("year", JNull);
          ("genre", JNull); ("productionCountry", JNull); ("keywords", JNull);
          ("moodTags", JNull); ("score", JFloat x); ("similarity", JFloat x) ].

(** The keys of the dict literal of a result, in its order; the first
    eight are read from the catalogue record. *)
Definition metadata_keys : list string :=
  ["imdbId"; "id"; "title"; "year"; "genre"; "productionCountry"; "keywords"; "moodTags"].

Definition result_keys : list string := metadata_keys ++ ["score"; "similarity"].

(** [list(d.keys())]. *)
Definition keys (d : dict) : list string := map fst d.

(** The two globals are set together or not at all. *)
Definition in_step (st : State) : Prop := _INDEX st = None <-> _META st = None.

(** The outcomes of the three server-side guards. *)
Definition server_fault (e : exn) : Prop :=
  e = HTTPException 500 "Index not loaded" \/
  e = HTTPException 500 "Invalid meta.json" \/
  e = HTTPException 500 "Invalid vector dim in meta.json" \/
  e = TypeError \/ e = OverflowError \/ exists msg, e = ValueError msg.

(** No call to the index in a trace. *)
Definition no_search (t : list event) : bool := forallb (fun ev => negb (is_search ev)) t.

End Service.

Arguments Return {lib A} a.
Arguments Raise {lib A} e.
Arguments Call {lib A R} c k.

Notation "x <- p ;; q" := (bind p (fun x => q))
  (at level 61, p at next level, right associativity).

(** ** A library to run the service against

    A stand-in for NumPy and FAISS that computes: the norm accumulates the
    squares from left to right in float32, and the index is a ranked list of
    (score, position) pairs that it returns whatever the query, cut or
    padded to [k] entries as FAISS pads a short answer (position -1). *)
Module Stub.

Definition norm (q : list float) : float :=
  sqrt32 (fold_left (fun acc x => add32 acc (mul32 x x)) q (S754_zero false)).

Definition lowest : float := SFopp (SFmax_float prec32 emax32).

Definition ranked (index : list (float * Z)) (q : list (list float)) (k : Z)
  : exn + (list (list float) * list (list Z)) :=
  if k <=? 0 then inl (LibraryError "k must be positive")
  else
    let hits := firstn (Z.to_nat k) index in
    let pad := repeat (lowest, -1) (Z.to_nat k - List.length hits) in
    inr ([map fst (hits ++ pad)], [map snd (hits ++ pad)]).

(** float32 literals *)
Definition f (num den : Z) : float :=
  SFdiv prec32 emax32 (to_f32 (of_Z num)) (to_f32 (of_Z den)).

(** binary64 literals *)
Definition d (num den : Z) : float :=
  SFdiv prec64 emax64 (of_Z num) (of_Z den).

Definition movie (n : Z) : json :=
  JDict [("imdbId", JStr (String.append "tt" (str n))); ("id", JInt n);
         ("title", JStr "t"); ("year", JInt (2000 + n))].

(** A catalogue of three records of dimension 2, the second of which is
    not an object. *)
Definition items3 : list json := [movie 0; JStr "oops"; movie 2].
Definition meta3 : dict := [("dim", JInt 2); ("items", JList items3)].
Definition index3 : list (float * Z) := [(f 9 10, 2); (f 1 2, 1); (f 1 4, 7)].

(** The metadata documents the stand-in parser knows, by the text of the
    file. *)
Definition loads (text : string) : exn + json :=
  if String.eqb text "meta3" then inr (JDict meta3)
  else if String.eqb text "items-is-a-number" then inr (JDict [("dim", JInt 2); ("items", JInt 5)])
  else if String.eqb text "no-items" then inr (JDict [("dim", JInt 2)])
  else if String.eqb text "a-list" then inr (JList [])
  else inl (LibraryError "JSONDecodeError").

Definition library : Library := {|
  Index := list (float * Z);
  int_of_str := fun s => option_map Z.of_int (NilZero.int_of_string s);
  strip := fun s => s;
  resolve := fun s => s;
  json_loads := loads;
  read_index := fun bytes => if String.eqb bytes "index3" then inr index3
                             else inl (LibraryError "could not read index");
  np_linalg_norm := norm;
  faiss_search := ranked
|}.

Definition state3 : @State library :=
  @Build_State library (Some index3) (Some meta3).

(** A catalogue of ten records of dimension 2. *)
Definition items10 : list json := map movie [0; 1; 2; 3; 4; 5; 6; 7; 8; 9].
Definition meta10 : dict := [("dim", JInt 2); ("items", JList items10)].
Definition state10 : @State library :=
  @Build_State library (Some index3) (Some meta10).

(** Two requests for the direction (3, 4), and the pairs the index
    returns for the second. *)
Definition req_top2 : SearchRequest := {| vector := [d 3 1; d 4 1]; topK := 2 |}.
Definition req_top5 : SearchRequest := {| vector := [d 3 1; d 4 1]; topK := 5 |}.
Definition pairs3 : list (float * Z) :=
  [(to_f64 (f 9 10), 2); (to_f64 (f 1 2), 1); (to_f64 (f 1 4), 7)].

(** Bodies that ask for 200 and for 500 neighbours. *)
Definition body_top200 : Body := {| body_vector := [d 3 1; d 4 1]; body_topK := Some 200 |}.
Definition body_top500 : Body := {| body_vector := [d 3 1; d 4 1]; body_topK := Some 500 |}.

(** An empty catalogue of dimension 2. *)
Definition meta0 : dict := [("dim", JInt 2); ("items", JList [])].
Definition state0 : @State library :=
  @Build_State library (Some index3) (Some meta0).

(** A data directory holding the index and the metadata text [text]. *)
Definition world (text : string) : World := {|
  environ := fun name => if String.eqb name "LOCAL_DATA_PATH" then Some "/data" else None;
  path_exists := fun _ => true;
  read_text := fun _ => text;
  read_bytes := fun _ => "index3"
|}.

(** The same directory without its metadata file. *)
Definition world_without_meta : World := {|
  environ := fun name => if String.eqb name "LOCAL_DATA_PATH" then Some "/data" else None;
  path_exists := fun p => negb (String.eqb p "/data/index/meta.json");
  read_text := fun _ => "meta3";
  read_bytes := fun _ => "index3"
|}.

(** A process started with an empty [LOCAL_DATA_PATH]. *)
Definition world_without_path : World := {|
  environ := fun name => if String.eqb name "LOCAL_DATA_PATH" then Some "" else None;
  path_exists := fun _ => true;
  read_text := fun _ => "meta3";
  read_bytes := fun _ => "index3"
|}.

(** 2^200 and 2^100 as Python floats: the first is beyond float32, the
    square of the second is. *)
Definition two_200 : float := S754_finite false 4503599627370496 148.
Definition two_100 : float := S754_finite false 4503599627370496 48.

(** A query of dimension 2 with a large finite entry. *)
Definition req_huge : SearchRequest := {| vector := [two_100; of_Z 0]; topK := 5 |}.

End Stub.

(** * Properties *)

(** ** Floats *)

(** Conversions on sample values: 1.0, an overflow, and [int(3.7)]. *)
Example to_f32_one : to_f32 (of_Z 1) = S754_finite false 8388608 (-23).
Proof. reflexivity. Qed.
Example to_f32_big : to_f32 (S754_finite false 4503599627370496 200) = S754_infinity false.
Proof. reflexivity. Qed.
Example trunc_37 : trunc (SFdiv prec64 emax64 (of_Z 37) (of_Z 10)) = Some 3.
Proof. reflexivity. Qed.

Lemma isfinite_to_f32_false (x : float) :
  isfinite x = false -> isfinite (to_f32 x) = false.
Proof. destruct x; simpl; congruence. Qed.

Lemma asarray_not_finite (v : list float) :
  existsb (fun x => negb (isfinite x)) v = true ->
  forallb isfinite (asarray v) = false.
Proof.
  induction v as [|x v IH]; simpl; [discriminate|].
  intros H. apply orb_true_iff in H. destruct H as [H|H].
  - apply negb_true_iff in H. now rewrite (isfinite_to_f32_false _ H).
  - rewrite (IH H). apply andb_false_r.
Qed.

(** [>=] is transitive: a chain of comparisons that all hold never goes
    through a NaN. *)
Lemma geb_trans (a b c : float) :
  geb a b = true -> geb b c = true -> geb a c = true.
Proof.
  unfold geb, SFleb.
  destruct a as [sa|sa| |sa ma ea], b as [sb|sb| |sb mb eb], c as [sc|sc| |sc mc ec];
    simpl; try reflexivity; try discriminate;
    repeat match goal with s : bool |- _ => destruct s end;
    simpl; try reflexivity; try discriminate.
  all: destruct (Z.compare_spec ec eb), (Z.compare_spec eb ea), (Z.compare_spec ec ea);
    try reflexivity; try discriminate; try lia; subst;
    rewrite ?Pos.compare_cont_spec; simpl;
    destruct (Pos.compare_spec mc mb), (Pos.compare_spec mb ma), (Pos.compare_spec mc ma);
    simpl; try reflexivity; try discriminate; try lia.
Qed.

Lemma sorted_non_increasing (l : list float) :
  Sorted (fun a b => geb a b = true) l -> non_increasing l.
Proof.
  apply Sorted_StronglySorted. intros a b c. apply geb_trans.
Qed.

Section Properties.

Context {lib : Library}.

(** ** The join loop *)

Lemma step_spec (items : list json) (results : list json) (p : float * Z) :
  step items results p =
  results ++ (if in_range items p then [emit items p] else []).
Proof.
  destruct p as [s idx]. unfold step, in_range, emit. simpl.
  destruct (Z.ltb_spec idx 0), (Z.leb_spec 0 idx); try lia; simpl.
  - now rewrite app_nil_r.
  - destruct (Z.ltb_spec idx (len items)), (Z.geb_spec idx (len items)); try lia.
    + reflexivity.
    + now rewrite app_nil_r.
Qed.

Lemma fold_step (items : list json) (pairs : list (float * Z)) (acc : list json) :
  fold_left (step items) pairs acc =
  acc ++ map (emit items) (filter (in_range items) pairs).
Proof.
  revert acc. induction pairs as [|p pairs IH]; intros acc; simpl.
  - now rewrite app_nil_r.
  - rewrite IH, step_spec. destruct (in_range items p); simpl.
    + now rewrite <- app_assoc.
    + now rewrite app_nil_r.
Qed.

(** The loop keeps the in-range pairs, in their order, one result each. *)
Lemma join_spec (items : list json) (pairs : list (float * Z)) :
  join items pairs = map (emit items) (filter (in_range items) pairs).
Proof. unfold join. now rewrite fold_step. Qed.

Lemma join_app (items : list json) (l1 l2 : list (float * Z)) :
  join items (l1 ++ l2) = join items l1 ++ join items l2.
Proof. now rewrite !join_spec, filter_app, map_app. Qed.

Lemma len_join (items : list json) (pairs : list (float * Z)) :
  len (join items pairs) <= len pairs.
Proof.
  rewrite join_spec. unfold len. rewrite length_map.
  apply inj_le. apply filter_length_le.
Qed.

Lemma score_emit (items : list json) (p : float * Z) :
  score (emit items p) = Some (fst p).
Proof. reflexivity. Qed.

(** ** One run of the handler *)

Lemma len_asarray (v : list float) : len (asarray v) = len v.
Proof. unfold len, asarray. now rewrite length_map. Qed.

(** What the handler does once the service is Ready with well-formed
    metadata: the three input checks in their order, then the two calls. *)
Lemma search_run (st : State) (index : Index) (meta : dict) (items : list json)
      (dim : Z) (req : SearchRequest) :
  serving st index meta items dim ->
  run (search st req) =
  let q := asarray (vector req) in
  if negb (len (vector req) =? dim)
  then ([], inl (HTTPException 400 (String.append "vector must have length " (str dim))))
  else if negb (forallb isfinite q)
  then ([], inl (HTTPException 400 "vector contains non-finite values"))
  else if eq_zero (query_norm req)
  then ([norm_called q], inl (HTTPException 400 "vector norm is 0"))
  else ([norm_called q; search_called index (normalized req) (effective_k items req)],
        match neighbours index items req with
        | inl e => inl e
        | inr pairs => inr (JDict [("results", JList (join items pairs))])
        end).
Proof.
  intros (Hi & Hm & Hitems & Hdim & Hpos).
  unfold search. rewrite Hi, Hm, Hitems, Hdim. simpl.
  destruct (Z.leb_spec dim 0); [lia|].
  rewrite len_asarray.
  destruct (len (vector req) =? dim); simpl; [|reflexivity].
  destruct (forallb isfinite (asarray (vector req))); simpl; [|reflexivity].
  fold (query_norm req).
  destruct (eq_zero (query_norm req)); simpl; [reflexivity|].
  unfold neighbours. fold (normalized req). fold (effective_k items req).
  destruct (faiss_search index (normalized req) (effective_k items req))
    as [e|[distances indices]]; simpl; [reflexivity|].
  destruct (row0 distances) as [e|d0]; simpl; [reflexivity|].
  destruct (row0 indices) as [e|i0]; simpl; reflexivity.
Qed.

(** A request that passes the checks makes exactly the two calls. *)
Lemma search_accepted (st : State) (index : Index) (meta : dict) (items : list json)
      (dim : Z) (req : SearchRequest) :
  serving st index meta items dim ->
  accepted dim req = true ->
  run (search st req) =
  ([norm_called (asarray (vector req));
    search_called index (normalized req) (effective_k items req)],
   match neighbours index items req with
   | inl e => inl e
   | inr pairs => inr (JDict [("results", JList (join items pairs))])
   end).
Proof.
  intros Hs Ha. rewrite (search_run _ _ _ _ _ _ Hs). cbv zeta.
  unfold accepted in Ha.
  apply andb_true_iff in Ha. destruct Ha as [Ha Hz].
  apply andb_true_iff in Ha. destruct Ha as [Hl Hf].
  rewrite Hl, Hf. apply negb_true_iff in Hz. rewrite Hz. reflexivity.
Qed.

(** A request that is answered passed the checks. *)
Lemma search_answered (st : State) (index : Index) (meta : dict) (items : list json)
      (dim : Z) (req : SearchRequest) (resp : json) :
  serving st index meta items dim ->
  snd (run (search st req)) = inr resp ->
  accepted dim req = true /\
  exists pairs, neighbours index items req = inr pairs /\
                resp = JDict [("results", JList (join items pairs))].
Proof.
  intros Hs. rewrite (search_run _ _ _ _ _ _ Hs). cbv zeta. unfold accepted.
  destruct (len (vector req) =? dim); simpl; [|discriminate].
  destruct (forallb isfinite (asarray (vector req))); simpl; [|discriminate].
  destruct (eq_zero (query_norm req)); simpl; [discriminate|].
  destruct (neighbours index items req) as [e|pairs]; [discriminate|].
  intros H. injection H as <-. split; [reflexivity|]. now exists pairs.
Qed.

(** In the Uninitialized state nothing is served. *)
Lemma search_uninitialized (req : SearchRequest) :
  run (search uninitialized req) = ([], inl (HTTPException 500 "Index not loaded")).
Proof. reflexivity. Qed.

(** A successful answer only comes from a Ready service with well-formed
    metadata. *)
Lemma search_success_serving (st : State) (req : SearchRequest) (resp : json) :
  snd (run (search st req)) = inr resp ->
  exists index meta items dim, serving st index meta items dim.
Proof.
  unfold search, serving.
  destruct (_INDEX st) as [index|]; [|discriminate].
  destruct (_META st) as [meta|]; [|discriminate].
  destruct (get meta "items") as [| | | | |items|] eqn:Hitems; try discriminate.
  destruct (int (py_or (get meta "dim") (JInt 0))) as [e|dim] eqn:Hdim; [discriminate|].
  simpl. destruct (Z.leb_spec dim 0); [discriminate|].
  intros _. exists index, meta, items, dim. repeat split; auto.
Qed.

Lemma str_reads_back (n : Z) :
  0 < n -> option_map Z.of_int (NilZero.int_of_string (str n)) = Some n.
Proof.
  intros Hn. unfold str. rewrite NilZero.isi.
  - simpl. now rewrite DecimalZ.of_to.
  - destruct n as [|p|p]; try lia. simpl. intros [= H].
    now apply (DecimalPos.Unsigned.to_uint_nonnil p).
  - destruct n as [|p|p]; try lia. simpl. discriminate.
Qed.

(** ** Input checks *)

(** C4. A query whose length differs from the declared dimension is
    rejected with HTTP 400, before any library call, and the detail of the
    error is "vector must have length " followed by the decimal numeral of
    the declared dimension (the numeral reads back as the dimension). *)
Theorem wrong_length_rejected (st : State) (index : Index) (meta : dict)
        (items : list json) (dim : Z) (req : SearchRequest) :
  serving st index meta items dim ->
  len (vector req) <> dim ->
  run (search st req) =
    ([], inl (HTTPException 400 (String.append "vector must have length " (str dim)))) /\
  option_map Z.of_int (NilZero.int_of_string (str dim)) = Some dim.
Proof.
  intros Hs Hlen. split.
  - rewrite (search_run _ _ _ _ _ _ Hs). cbv zeta.
    destruct (Z.eqb_spec (len (vector req)) dim); [contradiction|reflexivity].
  - apply str_reads_back. apply Hs.
Qed.

(** C5. A query that contains an infinity or a NaN is rejected with HTTP
    400 and the handler is then a bare raise: it has no library call in it,
    so neither the norm is computed nor the division that follows it; when
    the length is the declared one the error is the non-finite one. *)
Theorem non_finite_rejected (st : State) (index : Index) (meta : dict)
        (items : list json) (dim : Z) (req : SearchRequest) :
  serving st index meta items dim ->
  existsb (fun x => negb (isfinite x)) (vector req) = true ->
  exists detail,
    search st req = Raise (HTTPException 400 detail) /\
    run (search st req) = ([], inl (HTTPException 400 detail)) /\
    (len (vector req) = dim -> detail = "vector contains non-finite values").
Proof.
  intros (Hi & Hm & Hitems & Hdim & Hpos) Hnf.
  apply asarray_not_finite in Hnf.
  unfold search. rewrite Hi, Hm, Hitems, Hdim. simpl.
  destruct (Z.leb_spec dim 0); [lia|].
  rewrite len_asarray, Hnf. simpl.
  destruct (Z.eqb_spec (len (vector req)) dim) as [E|E]; simpl.
  - exists "vector contains non-finite values". repeat split; reflexivity.
  - eexists. repeat split; try reflexivity. intros; contradiction.
Qed.

(** C3. A query whose Euclidean norm is zero is rejected with HTTP 400 and
    the run makes no call to the index; when the length and finiteness
    checks pass, the error is "vector norm is 0". *)
Theorem zero_norm_rejected (st : State) (index : Index) (meta : dict)
        (items : list json) (dim : Z) (req : SearchRequest) :
  serving st index meta items dim ->
  eq_zero (query_norm req) = true ->
  exists detail,
    snd (run (search st req)) = inl (HTTPException 400 detail) /\
    no_search (fst (run (search st req))) = true /\
    (len (vector req) = dim -> forallb isfinite (asarray (vector req)) = true ->
     run (search st req) =
       ([norm_called (asarray (vector req))], inl (HTTPException 400 "vector norm is 0"))).
Proof.
  intros Hs Hz. rewrite (search_run _ _ _ _ _ _ Hs). cbv zeta. rewrite Hz.
  destruct (Z.eqb_spec (len (vector req)) dim) as [E|E]; simpl.
  - destruct (forallb isfinite (asarray (vector req))); simpl;
      eexists; repeat split; try reflexivity; intros; congruence.
  - eexists; repeat split; try reflexivity; intros; congruence.
Qed.

(** ** Results *)

Lemma validate_inr (b : Body) (req : SearchRequest) :
  validate b = inr req ->
  1 <= topK req <= 200 /\ vector req = body_vector b.
Proof.
  unfold validate.
  destruct (Z.leb_spec 1 (match body_topK b with Some k => k | None => 50 end));
    destruct (Z.leb_spec (match body_topK b with Some k => k | None => 50 end) 200);
    simpl; try discriminate.
  intros [= <-]. simpl. split; [lia|reflexivity].
Qed.


Lemma non_increasing_filter (f : float * Z -> bool) (pairs : list (float * Z)) :
  non_increasing (map fst pairs) -> non_increasing (map fst (filter f pairs)).
Proof.
  unfold non_increasing.
  induction pairs as [|p pairs IH]; simpl; intros H; [constructor|].
  inversion H as [|x l Hl Hx]; subst.
  destruct (f p); simpl; [|now apply IH].
  constructor; [now apply IH|].
  rewrite Forall_forall in *. intros y Hy. apply Hx.
  apply in_map_iff in Hy. destruct Hy as (q & <- & Hq).
  apply filter_In in Hq. apply in_map. apply Hq.
Qed.

Lemma map_score_join (items : list json) (pairs : list (float * Z)) :
  map score (join items pairs) =
  map (fun p => Some (fst p)) (filter (in_range items) pairs).
Proof. rewrite join_spec, map_map. reflexivity. Qed.

Lemma in_range_iff (items : list json) (x : float) (idx : Z) :
  in_range items (x, idx) = true <-> 0 <= idx < len items.
Proof. unfold in_range. simpl. lia. Qed.

(** C1. A request served in the Ready state, for which the index returned
    at most K pairs, gets at most min(topK, catalogue size) results; their
    scores are the scores of the index, in the order of the index, with
    the out-of-range positions left out; if the index ranked them by
    non-increasing score, so are the results. *)
Theorem results_bounded_and_ranked (st : State) (index : Index) (meta : dict)
        (items : list json) (dim : Z) (b : Body) (req : SearchRequest)
        (pairs : list (float * Z)) (resp : json) :
  serving st index meta items dim ->
  validate b = inr req ->
  neighbours index items req = inr pairs ->
  len pairs <= effective_k items req ->
  snd (run (post_search st b)) = inr resp ->
  exists results,
    resp = JDict [("results", JList results)] /\
    len results <= Z.min (topK req) (len items) /\
    map score results = map (fun p => Some (fst p)) (filter (in_range items) pairs) /\
    (non_increasing (map fst pairs) ->
     non_increasing (map fst (filter (in_range items) pairs))).
Proof.
  intros Hs Hv Hn Hlen Hrun.
  destruct (validate_inr _ _ Hv) as [Hk _].
  unfold post_search in Hrun. rewrite Hv in Hrun. simpl in Hrun.
  destruct (search_answered _ _ _ _ _ _ _ Hs Hrun) as (_ & pairs' & Hn' & ->).
  rewrite Hn in Hn'. injection Hn' as <-.
  exists (join items pairs). split; [reflexivity|]. split; [|split].
  - pose proof (len_join items pairs). unfold effective_k in Hlen. lia.
  - apply map_score_join.
  - apply non_increasing_filter.
Qed.

(** C6. In a served request, a pair whose position is negative (as the
    sentinel -1) or not below the catalogue length leaves no trace in the
    results: they are the results of the pairs before it followed by those
    of the pairs after it; the request succeeds all the same, and no result
    is null. *)
Theorem out_of_range_dropped (st : State) (index : Index) (meta : dict)
        (items : list json) (dim : Z) (req : SearchRequest)
        (before after : list (float * Z)) (x : float) (idx : Z) :
  serving st index meta items dim ->
  accepted dim req = true ->
  neighbours index items req = inr (before ++ (x, idx) :: after) ->
  idx < 0 \/ len items <= idx ->
  exists results,
    snd (run (search st req)) = inr (JDict [("results", JList results)]) /\
    results = join items before ++ join items after /\
    ~ In JNull results.
Proof.
  intros Hs Ha Hn Hidx.
  rewrite (search_accepted _ _ _ _ _ _ Hs Ha), Hn. simpl.
  eexists. split; [reflexivity|]. split.
  - rewrite join_app. f_equal.
    change ((x, idx) :: after) with ([(x, idx)] ++ after).
    rewrite join_app. rewrite (join_spec items [(x, idx)]). simpl.
    destruct (in_range items (x, idx)) eqn:E; [|reflexivity].
    apply in_range_iff in E. lia.
  - rewrite join_spec. intros Hin. apply in_map_iff in Hin.
    destruct Hin as (p & Hp & _). discriminate.
Qed.

Lemma results_follow_pairs (items : list json) (l : list (float * Z)) :
  Forall2 (fun r p =>
             r = emit items p /\
             exists d, r = JDict d /\
                       get d "score" = JFloat (fst p) /\
                       get d "similarity" = JFloat (fst p))
          (map (emit items) l) l.
Proof.
  induction l as [|p l IH]; simpl; constructor; [|exact IH].
  split; [reflexivity|]. unfold emit, result. eexists. repeat split; reflexivity.
Qed.

(** C7. In the answer of a successful search, held against the catalogue
    of the state and the pairs its index returned, the results are, one for
    one and in order, those of the in-range pairs: the result of a pair is
    the object built from the catalogue record at the position of the pair,
    and its [score] and [similarity] fields both hold the same float, the
    score of that pair. *)
Theorem score_is_similarity (st : State) (req : SearchRequest) (resp : json) :
  snd (run (search st req)) = inr resp ->
  exists index meta items dim pairs results,
    serving st index meta items dim /\
    neighbours index items req = inr pairs /\
    resp = JDict [("results", JList results)] /\
    Forall2 (fun r p =>
               r = emit items p /\
               exists d, r = JDict d /\
                         get d "score" = JFloat (fst p) /\
                         get d "similarity" = JFloat (fst p))
            results (filter (in_range items) pairs).
Proof.
  intros Hrun.
  destruct (search_success_serving _ _ _ Hrun) as (index & meta & items & dim & Hs).
  destruct (search_answered _ _ _ _ _ _ _ Hs Hrun) as (_ & pairs & Hn & ->).
  exists index, meta, items, dim, pairs, (join items pairs).
  split; [exact Hs|]. split; [exact Hn|]. split; [reflexivity|].
  rewrite join_spec. apply results_follow_pairs.
Qed.

(** C10. In a served request, a pair whose position is in range but whose
    catalogue entry is not an object yields a result all the same, at its
    place among the others: the eight metadata fields are null and [score]
    and [similarity] are the score of the pair. *)
Theorem non_object_record_emitted (st : State) (index : Index) (meta : dict)
        (items : list json) (dim : Z) (req : SearchRequest)
        (before after : list (float * Z)) (x : float) (idx : Z) :
  serving st index meta items dim ->
  accepted dim req = true ->
  neighbours index items req = inr (before ++ (x, idx) :: after) ->
  0 <= idx < len items ->
  (forall d, getitem items idx <> JDict d) ->
  snd (run (search st req)) =
    inr (JDict [("results",
                 JList (join items before ++ null_result x :: join items after))]).
Proof.
  intros Hs Ha Hn Hidx Hrec.
  rewrite (search_accepted _ _ _ _ _ _ Hs Ha), Hn. simpl.
  do 4 f_equal. rewrite join_app. f_equal.
  change ((x, idx) :: after) with ([(x, idx)] ++ after).
  rewrite join_app. rewrite (join_spec items [(x, idx)]). simpl.
  destruct (in_range items (x, idx)) eqn:E.
  - simpl. f_equal. unfold emit, record. simpl.
    destruct (getitem items idx) eqn:G; try reflexivity.
    now destruct (Hrec d).
  - assert (in_range items (x, idx) = true) by (apply in_range_iff; lia).
    congruence.
Qed.

(** ** The effective K *)

(** C8 (as the code has it). A body whose [topK] is outside 1..200 is
    refused when the request model is built: the handler does not run and
    nothing is called.  For a body that the model admits and whose query
    passes the input checks, the K passed to the index is
    min(max(1, topK), catalogue size), which is min(topK, catalogue size):
    never above the catalogue size, and at least 1 when the catalogue is
    not empty. *)
Theorem effective_k_clamped (st : State) (index : Index) (meta : dict)
        (items : list json) (dim : Z) (b : Body) :
  serving st index meta items dim ->
  (forall t, body_topK b = Some t -> t < 1 \/ 200 < t ->
             run (post_search st b) = ([], inl RequestValidationError)) /\
  (forall req, validate b = inr req -> accepted dim req = true ->
     fst (run (post_search st b)) =
       [norm_called (asarray (vector req));
        search_called index (normalized req) (Z.min (Z.max 1 (topK req)) (len items))] /\
     Z.min (Z.max 1 (topK req)) (len items) = Z.min (topK req) (len items) /\
     Z.min (Z.max 1 (topK req)) (len items) <= len items /\
     (1 <= len items -> 1 <= Z.min (Z.max 1 (topK req)) (len items))).
Proof.
  intros Hs. split.
  - intros t Ht Hout. unfold post_search, validate. rewrite Ht.
    destruct (Z.leb_spec 1 t), (Z.leb_spec t 200); simpl; try reflexivity; lia.
  - intros req Hv Ha. destruct (validate_inr _ _ Hv) as [Hk _].
    unfold post_search. rewrite Hv. simpl.
    rewrite (search_accepted _ _ _ _ _ _ Hs Ha). simpl.
    repeat split; try reflexivity; lia.
Qed.

(** ** Startup *)

(** With an object that has an [items] key the load succeeds whatever the
    value under the key. *)
Lemma load_accepts_items_field (w : World) (dir : string) (index : Index) (d : dict) :
  _data_dir w = inr dir ->
  path_exists w (path_join dir "faiss.index") = true ->
  path_exists w (path_join dir "meta.json") = true ->
  read_index (read_bytes w (path_join dir "faiss.index")) = inr index ->
  json_loads (read_text w (path_join dir "meta.json")) = inr (JDict d) ->
  contains d "items" = true ->
  _load_assets w = inr (index, d).
Proof.
  intros Hd Hi Hm Hr Hj Hc. unfold _load_assets.
  rewrite Hd, Hi, Hm, Hr, Hj, Hc. reflexivity.
Qed.

(** A catalogue that is not an array is reported by each request. *)
Lemma search_invalid_meta (index : Index) (meta : dict) (req : SearchRequest) :
  (forall l, get meta "items" <> JList l) ->
  run (search {| _INDEX := Some index; _META := Some meta |} req) =
    ([], inl (HTTPException 500 "Invalid meta.json")).
Proof.
  intros H. unfold search. simpl.
  destruct (get meta "items") eqn:E; try reflexivity. now destruct (H l).
Qed.

(** C9 (as the code has it). When the parsed metadata document is not an
    object with an [items] key, the load raises the validation error
    [ValueError]; the startup hook then leaves the globals as they were, so
    that from the initial state the service is not Ready and every search
    request is refused with HTTP 500 "Index not loaded" without any call
    to the index. *)
Theorem load_requires_items_field (w : World) (dir : string) (index : Index)
        (doc : json) :
  _data_dir w = inr dir ->
  path_exists w (path_join dir "faiss.index") = true ->
  path_exists w (path_join dir "meta.json") = true ->
  read_index (read_bytes w (path_join dir "faiss.index")) = inr index ->
  json_loads (read_text w (path_join dir "meta.json")) = inr doc ->
  has_items_field doc = false ->
  _load_assets w = inl (ValueError "meta.json must be an object with an 'items' field") /\
  (forall st, _startup w st =
              (st, Some (ValueError "meta.json must be an object with an 'items' field"))) /\
  ready (fst (_startup w uninitialized)) = false /\
  (forall req, run (search (fst (_startup w uninitialized)) req) =
               ([], inl (HTTPException 500 "Index not loaded"))).
Proof.
  intros Hd Hi Hm Hr Hj Hf.
  assert (Hload : _load_assets w =
                  inl (ValueError "meta.json must be an object with an 'items' field")).
  { unfold _load_assets. rewrite Hd, Hi, Hm, Hr, Hj. simpl.
    destruct doc; try reflexivity. simpl in Hf. now rewrite Hf. }
  assert (Hstart : forall st, _startup w st =
             (st, Some (ValueError "meta.json must be an object with an 'items' field"))).
  { intros st. unfold _startup. now rewrite Hload. }
  split; [exact Hload|]. split; [exact Hstart|].
  rewrite Hstart. simpl. split; reflexivity.
Qed.

End Properties.

(** ** The stand-in library on concrete inputs *)

(** The left-to-right norm of a vector of zeros (of either sign) is zero. *)
Lemma stub_norm_zeros (q : list float) :
  Forall (fun x => exists s, x = S754_zero s) q ->
  Stub.norm q = S754_zero false.
Proof.
  unfold Stub.norm. intros H.
  assert (E : fold_left (fun acc x => add32 acc (mul32 x x)) q (S754_zero false)
              = S754_zero false).
  { induction H as [|x q [s ->] _ IH]; simpl; [reflexivity|].
    destruct s; exact IH. }
  now rewrite E.
Qed.

Lemma asarray_zeros (v : list float) :
  Forall (fun x => exists s, x = S754_zero s) v ->
  Forall (fun x => exists s, x = S754_zero s) (asarray v).
Proof.
  unfold asarray. induction 1 as [|x q [s ->] _ IH]; simpl; constructor.
  - now exists s.
  - exact IH.
Qed.

(** The all-zeros query of the declared dimension is rejected for its norm
    and never reaches the index. *)
Lemma zero_vector_rejected (st : @State Stub.library) index meta items dim
      (req : SearchRequest) :
  serving st index meta items dim ->
  len (vector req) = dim ->
  Forall (fun x => exists s, x = S754_zero s) (vector req) ->
  run (search st req) =
    ([norm_called (asarray (vector req))], inl (HTTPException 400 "vector norm is 0")).
Proof.
  intros Hs Hlen Hz.
  pose proof (asarray_zeros _ Hz) as Ha.
  rewrite (search_run _ _ _ _ _ _ Hs). cbv zeta.
  rewrite Hlen, Z.eqb_refl. simpl.
  assert (Hf : forallb isfinite (asarray (vector req)) = true).
  { apply forallb_forall. rewrite Forall_forall in Ha.
    intros x Hx. destruct (Ha x Hx) as [s ->]. reflexivity. }
  rewrite Hf. simpl. unfold query_norm. simpl.
  now rewrite (stub_norm_zeros _ Ha).
Qed.

Lemma serving_state3 :
  serving (lib := Stub.library) Stub.state3 Stub.index3 Stub.meta3 Stub.items3 2.
Proof. repeat split; reflexivity. Qed.

Example norm_3_4 : Stub.norm (asarray [Stub.d 3 1; Stub.d 4 1]) = to_f32 (of_Z 5).
Proof. reflexivity. Qed.

Example served_top2 :
  run (search Stub.state3 Stub.req_top2) =
  ([norm_called [to_f32 (of_Z 3); to_f32 (of_Z 4)];
    search_called (lib := Stub.library) Stub.index3 [[Stub.f 3 5; Stub.f 4 5]] 2],
   inr (JDict [("results",
                JList [emit Stub.items3 (to_f64 (Stub.f 9 10), 2);
                       null_result (to_f64 (Stub.f 1 2))])])).
Proof. reflexivity. Qed.

(** Against an empty catalogue the K handed to the index is 0. *)
Example empty_catalogue_k :
  fst (run (search Stub.state0 Stub.req_top2)) =
  [norm_called [to_f32 (of_Z 3); to_f32 (of_Z 4)];
   search_called (lib := Stub.library) Stub.index3 [[Stub.f 3 5; Stub.f 4 5]] 0].
Proof. reflexivity. Qed.

(** ** Where the code departs from the specification *)

(** C2 (where the code fails it). The query (2^100, 0) is finite, of the
    declared dimension and of Euclidean norm 2^100, and it passes the three
    input checks; the norm computed in float32 is +infinity, which the
    test [norm == 0] lets through, and the elementwise division turns the
    query into the all-zero row, of norm 0 and not 1, with which the index
    is searched. *)
Theorem normalisation_overflow :
  forallb isfinite (vector Stub.req_huge) = true /\
  asarray (vector Stub.req_huge) = [S754_finite false 8388608 77; S754_zero false] /\
  accepted (lib := Stub.library) 2 Stub.req_huge = true /\
  query_norm (lib := Stub.library) Stub.req_huge = S754_infinity false /\
  normalized (lib := Stub.library) Stub.req_huge = [[S754_zero false; S754_zero false]] /\
  Stub.norm [S754_zero false; S754_zero false] = S754_zero false /\
  run (search Stub.state3 Stub.req_huge) =
    ([norm_called [S754_finite false 8388608 77; S754_zero false];
      search_called (lib := Stub.library) Stub.index3
                    [[S754_zero false; S754_zero false]] 3],
     inr (JDict [("results",
                  JList [emit Stub.items3 (to_f64 (Stub.f 9 10), 2);
                         null_result (to_f64 (Stub.f 1 2))])])).
Proof. repeat split; reflexivity. Qed.

(** A body with [topK = 500] against a catalogue of ten records is not
    served with K = 10: it is refused when the request model is built. *)
Lemma topK_500_refused :
  len Stub.items10 = 10 /\
  run (post_search Stub.state10 Stub.body_top500) = ([], inl RequestValidationError) /\
  ~ (exists resp q,
        snd (run (post_search Stub.state10 Stub.body_top500)) = inr resp /\
        In (search_called (lib := Stub.library) Stub.index3 q 10)
           (fst (run (post_search Stub.state10 Stub.body_top500)))).
Proof.
  split; [reflexivity|]. split; [reflexivity|].
  intros (resp & q & H & _). discriminate H.
Qed.

(** A metadata document whose [items] is a number is not an object
    containing an [items] array, yet the load succeeds and the service
    becomes Ready. *)
Lemma items_number_loads :
  json_loads (Library := Stub.library)
             (read_text (Stub.world "items-is-a-number") "/data/index/meta.json")
    = inr (JDict [("dim", JInt 2); ("items", JInt 5)]) /\
  has_items_array (JDict [("dim", JInt 2); ("items", JInt 5)]) = false /\
  _load_assets (lib := Stub.library) (Stub.world "items-is-a-number")
    = inr (Stub.index3, [("dim", JInt 2); ("items", JInt 5)]) /\
  ready (fst (_startup (lib := Stub.library) (Stub.world "items-is-a-number") uninitialized))
    = true.
Proof. repeat split; reflexivity. Qed.

(** ** The theorems at concrete inputs *)

Lemma wrong_length_rejected_witness :
  len (vector {| vector := [Stub.d 1 1]; topK := 5 |}) <> 2 /\
  run (search Stub.state3 {| vector := [Stub.d 1 1]; topK := 5 |}) =
    ([], inl (HTTPException 400 "vector must have length 2")) /\
  option_map Z.of_int (NilZero.int_of_string (str 2)) = Some 2.
Proof.
  split; [discriminate|].
  apply (wrong_length_rejected (lib := Stub.library)
           Stub.state3 Stub.index3 Stub.meta3 Stub.items3 2
           {| vector := [Stub.d 1 1]; topK := 5 |}).
  - repeat split; reflexivity.
  - discriminate.
Defined.

Lemma non_finite_rejected_witness :
  exists detail,
    search Stub.state3 {| vector := [Stub.d 1 1; S754_infinity false]; topK := 5 |} =
      Raise (HTTPException 400 detail) /\
    run (search Stub.state3 {| vector := [Stub.d 1 1; S754_infinity false]; topK := 5 |}) =
      ([], inl (HTTPException 400 detail)) /\
    (len [Stub.d 1 1; S754_infinity false] = 2 ->
     detail = "vector contains non-finite values").
Proof.
  apply (non_finite_rejected (lib := Stub.library)
           Stub.state3 Stub.index3 Stub.meta3 Stub.items3 2
           {| vector := [Stub.d 1 1; S754_infinity false]; topK := 5 |}).
  - repeat split; reflexivity.
  - reflexivity.
Defined.

Lemma zero_norm_rejected_witness :
  exists detail,
    snd (run (search Stub.state3 {| vector := [of_Z 0; of_Z 0]; topK := 5 |})) =
      inl (HTTPException 400 detail) /\
    no_search (fst (run (search Stub.state3 {| vector := [of_Z 0; of_Z 0]; topK := 5 |})))
      = true /\
    (len [of_Z 0; of_Z 0] = 2 ->
     forallb isfinite (asarray [of_Z 0; of_Z 0]) = true ->
     run (search Stub.state3 {| vector := [of_Z 0; of_Z 0]; topK := 5 |}) =
       ([norm_called (asarray [of_Z 0; of_Z 0])],
        inl (HTTPException 400 "vector norm is 0"))).
Proof.
  apply (zero_norm_rejected (lib := Stub.library)
           Stub.state3 Stub.index3 Stub.meta3 Stub.items3 2
           {| vector := [of_Z 0; of_Z 0]; topK := 5 |}).
  - repeat split; reflexivity.
  - reflexivity.
Defined.

Lemma results_bounded_and_ranked_witness :
  exists results,
    JDict [("results", JList (join Stub.items3 (firstn 2 Stub.pairs3)))] =
      JDict [("results", JList results)] /\
    len results <= Z.min (topK Stub.req_top2) (len Stub.items3) /\
    map score results =
      map (fun p => Some (fst p)) (filter (in_range Stub.items3) (firstn 2 Stub.pairs3)) /\
    (non_increasing (map fst (firstn 2 Stub.pairs3)) ->
     non_increasing (map fst (filter (in_range Stub.items3) (firstn 2 Stub.pairs3)))).
Proof.
  apply (results_bounded_and_ranked (lib := Stub.library)
           Stub.state3 Stub.index3 Stub.meta3 Stub.items3 2
           {| body_vector := [Stub.d 3 1; Stub.d 4 1]; body_topK := Some 2 |}
           Stub.req_top2 (firstn 2 Stub.pairs3)).
  - repeat split; reflexivity.
  - reflexivity.
  - reflexivity.
  - vm_compute; discriminate.
  - reflexivity.
Defined.

Lemma out_of_range_dropped_witness :
  exists results,
    snd (run (search Stub.state3 Stub.req_top5)) = inr (JDict [("results", JList results)]) /\
    results = join Stub.items3 (firstn 2 Stub.pairs3) ++ join Stub.items3 [] /\
    ~ In JNull results.
Proof.
  apply (out_of_range_dropped (lib := Stub.library)
           Stub.state3 Stub.index3 Stub.meta3 Stub.items3 2
           Stub.req_top5 (firstn 2 Stub.pairs3) [] (to_f64 (Stub.f 1 4)) 7).
  - repeat split; reflexivity.
  - reflexivity.
  - reflexivity.
  - right. vm_compute; discriminate.
Defined.

Lemma score_is_similarity_witness :
  exists (index : @Index Stub.library) meta items dim pairs results,
    serving Stub.state3 index meta items dim /\
    neighbours index items Stub.req_top2 = inr pairs /\
    JDict [("results", JList (join Stub.items3 (firstn 2 Stub.pairs3)))] =
      JDict [("results", JList results)] /\
    Forall2 (fun r p =>
               r = emit items p /\
               exists d, r = JDict d /\
                         get d "score" = JFloat (fst p) /\
                         get d "similarity" = JFloat (fst p))
            results (filter (in_range items) pairs).
Proof.
  apply (score_is_similarity (lib := Stub.library) Stub.state3 Stub.req_top2).
  reflexivity.
Defined.

Lemma non_object_record_emitted_witness :
  snd (run (search Stub.state3 Stub.req_top5)) =
    inr (JDict [("results",
                 JList (join Stub.items3 [(to_f64 (Stub.f 9 10), 2)]
                        ++ null_result (to_f64 (Stub.f 1 2))
                        :: join Stub.items3 [(to_f64 (Stub.f 1 4), 7)]))]).
Proof.
  apply (non_object_record_emitted (lib := Stub.library)
           Stub.state3 Stub.index3 Stub.meta3 Stub.items3 2
           Stub.req_top5 [(to_f64 (Stub.f 9 10), 2)] [(to_f64 (Stub.f 1 4), 7)]
           (to_f64 (Stub.f 1 2)) 1).
  - repeat split; reflexivity.
  - reflexivity.
  - reflexivity.
  - unfold len; simpl; lia.
  - intros d0. vm_compute. discriminate.
Defined.

Lemma effective_k_clamped_witness :
  fst (run (post_search Stub.state10 Stub.body_top200)) =
    [norm_called [to_f32 (of_Z 3); to_f32 (of_Z 4)];
     search_called (lib := Stub.library) Stub.index3 [[Stub.f 3 5; Stub.f 4 5]] 10] /\
  run (post_search Stub.state10 Stub.body_top500) = ([], inl RequestValidationError).
Proof.
  destruct (effective_k_clamped (lib := Stub.library)
              Stub.state10 Stub.index3 Stub.meta10 Stub.items10 2 Stub.body_top200)
    as [_ H200]; [repeat split; reflexivity|].
  destruct (effective_k_clamped (lib := Stub.library)
              Stub.state10 Stub.index3 Stub.meta10 Stub.items10 2 Stub.body_top500)
    as [H500 _]; [repeat split; reflexivity|].
  split.
  - destruct (H200 {| vector := [Stub.d 3 1; Stub.d 4 1]; topK := 200 |})
      as [Htrace _]; [reflexivity|reflexivity|].
    exact Htrace.
  - apply (H500 500); [reflexivity|right; reflexivity].
Defined.

Lemma load_requires_items_field_witness :
  _load_assets (lib := Stub.library) (Stub.world "no-items") =
    inl (ValueError "meta.json must be an object with an 'items' field") /\
  ready (fst (_startup (lib := Stub.library) (Stub.world "no-items") uninitialized)) = false.
Proof.
  destruct (load_requires_items_field (lib := Stub.library)
              (Stub.world "no-items") "/data/index" Stub.index3 (JDict [("dim", JInt 2)]))
    as (Hload & _ & Hready & _); try reflexivity.
  split; [exact Hload|exact Hready].
Defined.

(** * Further properties of the service *)

Section Startup.

Context {lib : Library}.

(** ** The asset loader *)

Lemma load_inversion (w : World) (index : Index) (meta : dict) :
  _load_assets w = inr (index, meta) ->
  exists dir,
    _data_dir w = inr dir /\
    path_exists w (path_join dir "faiss.index") = true /\
    path_exists w (path_join dir "meta.json") = true /\
    read_index (read_bytes w (path_join dir "faiss.index")) = inr index /\
    json_loads (read_text w (path_join dir "meta.json")) = inr (JDict meta) /\
    contains meta "items" = true.
Proof.
  unfold _load_assets.
  destruct (_data_dir w) as [e|dir]; [discriminate|].
  destruct (path_exists w (path_join dir "faiss.index")) eqn:Hi; [|discriminate].
  destruct (path_exists w (path_join dir "meta.json")) eqn:Hm; [|discriminate].
  simpl.
  destruct (read_index (read_bytes w (path_join dir "faiss.index"))) as [e|ix] eqn:Hr;
    [discriminate|].
  destruct (json_loads (read_text w (path_join dir "meta.json"))) as [e|doc] eqn:Hj;
    [discriminate|].
  destruct doc; try discriminate.
  destruct (contains d "items") eqn:Hc; [|discriminate].
  simpl. intros [= <- <-]. exists dir. repeat split; auto.
Qed.

Lemma data_dir_inversion (w : World) (dir : string) :
  _data_dir w = inr dir ->
  exists raw,
    environ w "LOCAL_DATA_PATH" = Some raw /\ raw <> "" /\ strip raw <> "" /\
    dir = path_join (resolve raw) "index".
Proof.
  unfold _data_dir.
  destruct (environ w "LOCAL_DATA_PATH") as [raw|]; [|discriminate].
  destruct (String.eqb_spec raw ""); [discriminate|].
  destruct (String.eqb_spec (strip raw) ""); [discriminate|].
  simpl. intros [= <-]. now exists raw.
Qed.

(** X1. When [LOCAL_DATA_PATH] is unset, empty or blank, the data directory
    cannot be named: the load fails with the configuration error whatever
    the files are, and the startup hook leaves the globals as they were. *)
Theorem missing_data_path (w : World) (st : State) :
  environ w "LOCAL_DATA_PATH" = None \/
  (exists raw, environ w "LOCAL_DATA_PATH" = Some raw /\ (raw = "" \/ strip raw = "")) ->
  _data_dir w = inl (RuntimeError missing_path_msg) /\
  _load_assets w = inl (RuntimeError missing_path_msg) /\
  _startup w st = (st, Some (RuntimeError missing_path_msg)).
Proof.
  intros H.
  assert (Hd : _data_dir w = inl (RuntimeError missing_path_msg)).
  { unfold _data_dir. destruct H as [-> | (raw & -> & [-> | Hs])]; try reflexivity.
    rewrite Hs. simpl. now rewrite orb_true_r. }
  assert (Hl : _load_assets w = inl (RuntimeError missing_path_msg)).
  { unfold _load_assets. now rewrite Hd. }
  repeat split; auto. unfold _startup. now rewrite Hl.
Qed.

(** X2. When the data directory can be named and either of the two files
    is absent from it, the load fails with [FileNotFoundError] whatever
    the files hold, and the startup hook leaves the globals as they were. *)
Theorem missing_asset_file (w : World) (st : State) (dir : string) :
  _data_dir w = inr dir ->
  path_exists w (path_join dir "faiss.index") = false \/
  path_exists w (path_join dir "meta.json") = false ->
  _load_assets w = inl (FileNotFoundError missing_assets_msg) /\
  _startup w st = (st, Some (FileNotFoundError missing_assets_msg)).
Proof.
  intros Hd H.
  assert (Hl : _load_assets w = inl (FileNotFoundError missing_assets_msg)).
  { unfold _load_assets. rewrite Hd.
    destruct H as [-> | ->]; simpl; [reflexivity|].
    now rewrite orb_true_r. }
  split; [exact Hl|]. unfold _startup. now rewrite Hl.
Qed.

(** X3. A load that returns went through every step: the path was set and
    not blank, both files are in [resolve(path)/index], the index is what
    [faiss.read_index] made of the index file, and the metadata is the
    object [json.loads] made of the metadata file, with an [items] key. *)
Theorem load_success_sound (w : World) (index : Index) (meta : dict) :
  _load_assets w = inr (index, meta) ->
  exists raw,
    environ w "LOCAL_DATA_PATH" = Some raw /\ raw <> "" /\ strip raw <> "" /\
    let dir := path_join (resolve raw) "index" in
    path_exists w (path_join dir "faiss.index") = true /\
    path_exists w (path_join dir "meta.json") = true /\
    read_index (read_bytes w (path_join dir "faiss.index")) = inr index /\
    json_loads (read_text w (path_join dir "meta.json")) = inr (JDict meta) /\
    contains meta "items" = true.
Proof.
  intros H. destruct (load_inversion _ _ _ H) as (dir & Hd & Hrest).
  destruct (data_dir_inversion _ _ Hd) as (raw & He & Hn & Hs & ->).
  exists raw. repeat split; auto; apply Hrest.
Qed.

(** ** The startup hook *)

(** X4. The startup hook is all or nothing: either the load returned and
    both globals now hold its two results, or it raised and the state is
    untouched.  Hence the globals stay in step, and a Ready service is
    never taken back to Uninitialized. *)
Theorem startup_all_or_nothing (w : World) (st : State) :
  ((exists index meta,
      _load_assets w = inr (index, meta) /\
      _startup w st = ({| _INDEX := Some index; _META := Some meta |}, None)) \/
   (exists e, _load_assets w = inl e /\ _startup w st = (st, Some e))) /\
  (in_step st -> in_step (fst (_startup w st))) /\
  (ready st = true -> ready (fst (_startup w st)) = true).
Proof.
  unfold _startup.
  destruct (_load_assets w) as [e|[index meta]]; simpl.
  - split; [right; now exists e|]. split; auto.
  - split; [left; now exists index, meta|]. split; [|reflexivity].
    intros _. unfold in_step. simpl. split; discriminate.
Qed.

End Startup.

Section Handler.

Context {lib : Library}.

(** ** The guards of the handler *)

(** [int] raises one of three exceptions, none of them an HTTP error. *)
Lemma int_raises (v : json) (e : exn) :
  int v = inl e ->
  e = TypeError \/ e = OverflowError \/ exists msg, e = ValueError msg.
Proof.
  destruct v as [|b|n|x|s|l|d]; simpl; try (intros [= <-]; auto); try discriminate.
  - destruct (trunc x); [discriminate|]. intros [= <-].
    destruct x; eauto.
  - destruct (int_of_str s); [discriminate|]. intros [= <-]. eauto.
Qed.

(** Either the service is Ready with well-formed metadata, or the handler
    is a bare raise of a server-side fault. *)
Lemma search_cases (st : State) (req : SearchRequest) :
  (exists index meta items dim, serving st index meta items dim) \/
  (exists e, search st req = Raise e /\ server_fault e).
Proof.
  unfold search, serving, server_fault.
  destruct (_INDEX st) as [index|]; [|right; eexists; split; [reflexivity|auto]].
  destruct (_META st) as [meta|]; [|right; eexists; split; [reflexivity|auto]].
  destruct (get meta "items") as [| | | | |items|] eqn:Hitems;
    try (right; eexists; split; [reflexivity|auto]).
  destruct (int (py_or (get meta "dim") (JInt 0))) as [e|dim] eqn:Hdim; simpl.
  - right. exists e. split; [reflexivity|].
    destruct (int_raises _ _ Hdim) as [->|[->|[m ->]]]; eauto 10.
  - destruct (Z.leb_spec dim 0).
    + right. eexists. split; [reflexivity|auto].
    + left. exists index, meta, items, dim. repeat split; auto.
Qed.

(** X5. The handler answers "Index not loaded" exactly when the service is
    not Ready: once both globals are set, its program is never that raise. *)
Theorem not_loaded_iff_not_ready (st : State) (req : SearchRequest) :
  search st req = Raise (HTTPException 500 "Index not loaded") <-> ready st = false.
Proof.
  unfold ready. split.
  - intros H.
    destruct (_INDEX st) as [index|] eqn:Hi; [|reflexivity].
    destruct (_META st) as [meta|] eqn:Hm; [|reflexivity].
    exfalso. revert H. unfold search. rewrite Hi, Hm.
    destruct (get meta "items"); try discriminate.
    destruct (int (py_or (get meta "dim") (JInt 0))) as [e|dim] eqn:Hdim; simpl.
    + destruct (int_raises _ _ Hdim) as [->|[->|[m ->]]]; discriminate.
    + destruct (dim <=? 0); [discriminate|].
      destruct (negb (len (asarray (vector req)) =? dim)); [discriminate|].
      destruct (negb (forallb isfinite (asarray (vector req)))); discriminate.
  - intros H. unfold search.
    destruct (_INDEX st); [|reflexivity].
    destruct (_META st); [discriminate|reflexivity].
Qed.

(** X6. The handler answers a request exactly when the service is Ready
    with well-formed metadata, the request passes the three input checks
    and the index returns its two matrices; the answer is then the object
    whose [results] are the join of the returned pairs. *)
Theorem success_iff (st : State) (req : SearchRequest) (resp : json) :
  snd (run (search st req)) = inr resp <->
  exists index meta items dim pairs,
    serving st index meta items dim /\
    accepted dim req = true /\
    neighbours index items req = inr pairs /\
    resp = JDict [("results", JList (join items pairs))].
Proof.
  split.
  - intros Hrun.
    destruct (search_success_serving _ _ _ Hrun) as (index & meta & items & dim & Hs).
    destruct (search_answered _ _ _ _ _ _ _ Hs Hrun) as (Ha & pairs & Hn & ->).
    now exists index, meta, items, dim, pairs.
  - intros (index & meta & items & dim & pairs & Hs & Ha & Hn & ->).
    rewrite (search_accepted _ _ _ _ _ _ Hs Ha), Hn. reflexivity.
Qed.

(** X7. Whatever the state and the request, a run of the handler makes no
    call, or the norm call alone, or the norm call followed by one search
    of the index of the state on the normalised query, with the effective
    K of the catalogue of the state; and an answered request made both. *)
Theorem calls_made (st : State) (req : SearchRequest) :
  let t := fst (run (search st req)) in
  (t = [] \/
   t = [norm_called (asarray (vector req))] \/
   exists index meta items dim,
     serving st index meta items dim /\
     t = [norm_called (asarray (vector req));
          search_called index (normalized req) (effective_k items req)]) /\
  (forall resp, snd (run (search st req)) = inr resp ->
     exists index meta items dim,
       serving st index meta items dim /\
       t = [norm_called (asarray (vector req));
            search_called index (normalized req) (effective_k items req)]).
Proof.
  cbv zeta.
  destruct (search_cases st req) as [(index & meta & items & dim & Hs) | (e & He & _)].
  - rewrite (search_run _ _ _ _ _ _ Hs). cbv zeta.
    destruct (negb (len (vector req) =? dim)); simpl; [split; [auto|discriminate]|].
    destruct (negb (forallb isfinite (asarray (vector req)))); simpl;
      [split; [auto|discriminate]|].
    destruct (eq_zero (query_norm req)); simpl; [split; [auto|discriminate]|].
    split; [right; right|intros resp _]; now exists index, meta, items, dim.
  - rewrite He. simpl. split; [auto|discriminate].
Qed.

(** X8. A declared dimension that is missing, null, false, zero or empty,
    or an integer that is not positive, is a server fault: with the index
    loaded and a catalogue that is a list, every request gets HTTP 500
    "Invalid vector dim in meta.json" and no library is called, whatever
    its vector. *)
Theorem invalid_dim_is_server_fault (index : Index) (meta : dict)
        (items : list json) (req : SearchRequest) :
  get meta "items" = JList items ->
  truthy (get meta "dim") = false \/ (exists n, get meta "dim" = JInt n /\ n <= 0) ->
  run (search {| _INDEX := Some index; _META := Some meta |} req) =
    ([], inl (HTTPException 500 "Invalid vector dim in meta.json")).
Proof.
  intros Hitems H. unfold search. simpl. rewrite Hitems.
  destruct H as [Hf | (n & Hn & Hle)].
  - unfold py_or. rewrite Hf. reflexivity.
  - unfold py_or. rewrite Hn. simpl.
    destruct (Z.eqb_spec n 0); simpl.
    + reflexivity.
    + destruct (Z.leb_spec n 0); [reflexivity|lia].
Qed.

(** X9. A declared dimension that [int] cannot convert (a non-empty list
    or object, a NaN, an infinity, a string that is not a numeral) is not
    reported as an HTTP error: the exception of the conversion leaves the
    handler as it is, before any library call. *)
Theorem unconvertible_dim_escapes (index : Index) (meta : dict)
        (items : list json) (req : SearchRequest) (e : exn) :
  get meta "items" = JList items ->
  int (py_or (get meta "dim") (JInt 0)) = inl e ->
  run (search {| _INDEX := Some index; _META := Some meta |} req) = ([], inl e) /\
  (forall status detail, e <> HTTPException status detail).
Proof.
  intros Hitems He. split.
  - unfold search. simpl. rewrite Hitems, He. reflexivity.
  - intros status detail.
    destruct (int_raises _ _ He) as [->|[->|[m ->]]]; discriminate.
Qed.

(** X10. A client error raised by the handler itself (HTTP 400 in a run
    without an index search) is only ever reported by a Ready service with
    well-formed metadata, and carries one of the three messages. *)
Theorem client_error_means_configured (st : State) (req : SearchRequest)
        (detail : string) :
  snd (run (search st req)) = inl (HTTPException 400 detail) ->
  no_search (fst (run (search st req))) = true ->
  exists index meta items dim,
    serving st index meta items dim /\
    (detail = String.append "vector must have length " (str dim) \/
     detail = "vector contains non-finite values" \/
     detail = "vector norm is 0").
Proof.
  destruct (search_cases st req) as [(index & meta & items & dim & Hs) | (e & He & Hf)].
  - rewrite (search_run _ _ _ _ _ _ Hs). cbv zeta.
    intros Hout Hns. exists index, meta, items, dim. split; [exact Hs|].
    destruct (negb (len (vector req) =? dim)); simpl in *; [injection Hout; auto|].
    destruct (negb (forallb isfinite (asarray (vector req)))); simpl in *;
      [injection Hout; auto|].
    destruct (eq_zero (query_norm req)); simpl in *; [injection Hout; auto|].
    discriminate Hns.
  - rewrite He. simpl. intros [= ->] _.
    destruct Hf as [H|[H|[H|[H|[H|[m H]]]]]]; discriminate H.
Qed.

End Handler.

Section Query.

Context {lib : Library}.

(** ** The query on its way to the index *)

Lemma asarray_overflow (v : list float) :
  existsb (fun x => negb (isfinite (to_f32 x))) v = true ->
  forallb isfinite (asarray v) = false.
Proof.
  induction v as [|x v IH]; simpl; [discriminate|].
  intros H. apply orb_true_iff in H. destruct H as [H|H].
  - apply negb_true_iff in H. now rewrite H.
  - rewrite (IH H). apply andb_false_r.
Qed.

(** X11. The finiteness check is made on the float32 array: a query of the
    declared length with an element whose float32 image is not finite, be
    it a finite Python float too large for float32, is rejected with HTTP
    400 "vector contains non-finite values" before any library call. *)
Theorem oversized_element_rejected (st : State) (index : Index) (meta : dict)
        (items : list json) (dim : Z) (req : SearchRequest) :
  serving st index meta items dim ->
  len (vector req) = dim ->
  existsb (fun x => negb (isfinite (to_f32 x))) (vector req) = true ->
  run (search st req) =
    ([], inl (HTTPException 400 "vector contains non-finite values")).
Proof.
  intros Hs Hlen Hbig. rewrite (search_run _ _ _ _ _ _ Hs). cbv zeta.
  rewrite Hlen, Z.eqb_refl, (asarray_overflow _ Hbig). reflexivity.
Qed.

Lemma divide_by_infinity (q : list float) (s : bool) :
  forallb isfinite q = true ->
  Forall (fun x => exists s', x = S754_zero s') (divide q (S754_infinity s)).
Proof.
  unfold divide. induction q as [|x q IH]; simpl; intros H; constructor.
  - apply andb_true_iff in H. destruct H as [Hx _].
    destruct x; try discriminate; simpl; eauto.
  - apply IH. apply andb_true_iff in H. apply H.
Qed.

(** X12. Only a norm equal to zero is rejected: when the norm obtained for
    a finite query of the declared length is infinite, the request goes on
    and the index is searched with a query whose entries are all zero. *)
Theorem infinite_norm_searches_zero_query (st : State) (index : Index)
        (meta : dict) (items : list json) (dim : Z) (req : SearchRequest)
        (s : bool) :
  serving st index meta items dim ->
  len (vector req) = dim ->
  forallb isfinite (asarray (vector req)) = true ->
  query_norm req = S754_infinity s ->
  exists row,
    Forall (fun x => exists s', x = S754_zero s') row /\
    fst (run (search st req)) =
      [norm_called (asarray (vector req));
       search_called index [row] (effective_k items req)].
Proof.
  intros Hs Hlen Hfin Hinf.
  exists (divide (asarray (vector req)) (S754_infinity s)). split.
  - now apply divide_by_infinity.
  - rewrite (search_run _ _ _ _ _ _ Hs). cbv zeta.
    rewrite Hlen, Z.eqb_refl, Hfin. simpl.
    unfold normalized, reshape. rewrite Hinf. now destruct s.
Qed.

Lemma len_divide (q : list float) (n : float) : len (divide q n) = len q.
Proof. unfold len, divide. now rewrite length_map. Qed.

(** X13. The index is only ever searched by a request that passed the
    three input checks, and then with the loaded index, a query of one row
    of exactly [dim] entries, and the effective K. *)
Theorem index_call_contract (st : State) (index : Index) (meta : dict)
        (items : list json) (dim : Z) (req : SearchRequest)
        (ix : Index) (q : list (list float)) (k : Z) :
  serving st index meta items dim ->
  In (search_called ix q k) (fst (run (search st req))) ->
  accepted dim req = true /\
  ix = index /\
  (exists row, q = [row] /\ len row = dim) /\
  k = effective_k items req.
Proof.
  intros Hs. rewrite (search_run _ _ _ _ _ _ Hs). cbv zeta. unfold accepted.
  destruct (Z.eqb_spec (len (vector req)) dim) as [Hlen|]; simpl; [|tauto].
  destruct (forallb isfinite (asarray (vector req))); simpl; [|tauto].
  destruct (eq_zero (query_norm req)); simpl.
  - intros [H|[]]. discriminate H.
  - intros [H|[H|[]]]; [discriminate H|].
    injection H as <- <- <-. repeat split.
    exists (divide (asarray (vector req)) (query_norm req)). split; [reflexivity|].
    now rewrite len_divide, len_asarray.
Qed.

(** X14. An exception raised by the index search is not caught: it is the
    outcome of the request, after the two calls. *)
Theorem index_error_propagates (st : State) (index : Index) (meta : dict)
        (items : list json) (dim : Z) (req : SearchRequest) (e : exn) :
  serving st index meta items dim ->
  accepted dim req = true ->
  faiss_search index (normalized req) (effective_k items req) = inl e ->
  run (search st req) =
    ([norm_called (asarray (vector req));
      search_called index (normalized req) (effective_k items req)],
     inl e).
Proof.
  intros Hs Ha He. rewrite (search_accepted _ _ _ _ _ _ Hs Ha).
  unfold neighbours. now rewrite He.
Qed.

(** ** The default of the request model *)

(** X16. A body that leaves [topK] out and passes the input checks asks
    the index for min(50, catalogue size) neighbours. *)
Theorem default_topK_is_50 (st : State) (index : Index) (meta : dict)
        (items : list json) (dim : Z) (b : Body) :
  serving st index meta items dim ->
  body_topK b = None ->
  accepted dim {| vector := body_vector b; topK := 50 |} = true ->
  fst (run (post_search st b)) =
    [norm_called (asarray (body_vector b));
     search_called index (normalized {| vector := body_vector b; topK := 50 |})
                   (Z.min 50 (len items))].
Proof.
  intros Hs Hk Ha. unfold post_search, validate. rewrite Hk. simpl.
  rewrite (search_accepted _ _ _ _ _ _ Hs Ha). reflexivity.
Qed.

End Query.

Section Join.

Context {lib : Library}.

(** ** The join of positions with the catalogue *)

(** X17. Every result, whatever the record behind it, is an object with
    the same ten keys in the same order: keys of a record beyond the eight
    that are read do not reach the answer. *)
Theorem result_schema (items : list json) (pairs : list (float * Z)) :
  Forall (fun r => exists d, r = JDict d /\ keys d = result_keys)
         (join items pairs).
Proof.
  rewrite join_spec. apply Forall_forall. intros r Hr.
  apply in_map_iff in Hr. destruct Hr as (p & <- & _).
  unfold emit, result. eexists. split; reflexivity.
Qed.

(** [d.get(key)] is [None] for a key that is not in [d]. *)
Lemma get_absent (d : dict) (key : string) :
  contains d key = false -> get d key = JNull.
Proof.
  induction d as [|[k v] d IH]; simpl; [reflexivity|].
  intros H. apply orb_false_iff in H. destruct H as [Hk Hd].
  rewrite Hk. now apply IH.
Qed.

(** X18. In a served request, a pair whose position is in range and whose
    catalogue entry is an object [d] yields, at its place, a result whose
    eight metadata fields are the values [d] has for them, null for the
    keys [d] lacks, and whose [score] and [similarity] are the score of
    the pair. *)
Theorem record_fields_copied (st : State) (index : Index) (meta : dict)
        (items : list json) (dim : Z) (req : SearchRequest)
        (before after : list (float * Z)) (x : float) (idx : Z) (d : dict) :
  serving st index meta items dim ->
  accepted dim req = true ->
  neighbours index items req = inr (before ++ (x, idx) :: after) ->
  0 <= idx < len items ->
  getitem items idx = JDict d ->
  exists r,
    snd (run (search st req)) =
      inr (JDict [("results",
                   JList (join items before ++ JDict r :: join items after))]) /\
    (forall key, In key metadata_keys -> get r key = get d key) /\
    (forall key, In key metadata_keys -> contains d key = false -> get r key = JNull) /\
    get r "score" = JFloat x /\ get r "similarity" = JFloat x.
Proof.
  intros Hs Ha Hn Hidx Hrec.
  assert (Hcopy : forall key, In key metadata_keys ->
            get [ ("imdbId", get d "imdbId"); ("id", get d "id");
                  ("title", get d "title"); ("year", get d "year");
                  ("genre", get d "genre");
                  ("productionCountry", get d "productionCountry");
                  ("keywords", get d "keywords"); ("moodTags", get d "moodTags");
                  ("score", JFloat x); ("similarity", JFloat x) ] key = get d key).
  { intros key Hk. simpl in Hk.
    repeat (destruct Hk as [<-|Hk]; [reflexivity|]). contradiction. }
  eexists. split; [|split; [exact Hcopy|split; [|split; reflexivity]]].
  - rewrite (search_accepted _ _ _ _ _ _ Hs Ha), Hn. simpl.
    do 4 f_equal. rewrite join_app. f_equal.
    change ((x, idx) :: after) with ([(x, idx)] ++ after).
    rewrite join_app. rewrite (join_spec items [(x, idx)]). simpl.
    assert (E : in_range items (x, idx) = true) by (apply in_range_iff; lia).
    rewrite E. simpl. f_equal. unfold emit, record. simpl. now rewrite Hrec.
  - intros key Hk Habs. rewrite (Hcopy key Hk). now apply get_absent.
Qed.

Lemma filter_all {A : Type} (f : A -> bool) (l : list A) :
  List.length (filter f l) = List.length l -> filter f l = l.
Proof.
  induction l as [|a l IH]; simpl; [reflexivity|].
  destruct (f a); simpl.
  - intros [= H]. now rewrite IH.
  - intros H. pose proof (filter_length_le f l). lia.
Qed.

(** X19. The loop produces as many results as there are returned pairs
    exactly when every returned position is in range. *)
Theorem one_result_per_pair (items : list json) (pairs : list (float * Z)) :
  len (join items pairs) = len pairs <->
  Forall (fun p => 0 <= snd p < len items) pairs.
Proof.
  rewrite join_spec. unfold len. rewrite length_map. split.
  - intros H. apply Nat2Z.inj in H. apply filter_all in H.
    apply Forall_forall. intros [x idx] Hp. rewrite <- H in Hp.
    apply filter_In in Hp. destruct Hp as [_ Hr]. simpl.
    now apply in_range_iff in Hr.
  - intros H. f_equal. f_equal. apply forallb_filter_id.
    apply forallb_forall. rewrite Forall_forall in H.
    intros [x idx] Hp. apply in_range_iff. exact (H _ Hp).
Qed.

Lemma join_no_items (pairs : list (float * Z)) : join [] pairs = [].
Proof.
  rewrite join_spec. induction pairs as [|[x idx] l IH]; simpl; [reflexivity|].
  destruct (in_range [] (x, idx)) eqn:E; [|exact IH].
  apply in_range_iff in E. unfold len in E. simpl in E. lia.
Qed.

(** X20. Against an empty catalogue the index is asked for 0 neighbours,
    and if it answers, whatever the pairs, the results are the empty
    list. *)
Theorem empty_catalogue_empty_results (st : State) (index : Index) (meta : dict)
        (dim : Z) (req : SearchRequest) :
  serving st index meta [] dim ->
  accepted dim req = true ->
  run (search st req) =
    ([norm_called (asarray (vector req)); search_called index (normalized req) 0],
     match neighbours index [] req with
     | inl e => inl e
     | inr _ => inr (JDict [("results", JList [])])
     end).
Proof.
  intros Hs Ha. rewrite (search_accepted _ _ _ _ _ _ Hs Ha).
  assert (Hk : effective_k [] req = 0).
  { unfold effective_k, len. simpl. lia. }
  rewrite Hk. f_equal.
  destruct (neighbours index [] req) as [e|pairs]; [reflexivity|].
  now rewrite join_no_items.
Qed.

(** X21. If each score the index returns is [>=] the next one, each score
    of the answer is [>=] the next one too: leaving out-of-range positions
    out does not break the ranking. *)
Theorem adjacent_ranking_kept (items : list json) (pairs : list (float * Z)) :
  Sorted (fun a b => geb a b = true) (map fst pairs) ->
  exists ss,
    map score (join items pairs) = map Some ss /\
    Sorted (fun a b => geb a b = true) ss.
Proof.
  intros H. exists (map fst (filter (in_range items) pairs)). split.
  - rewrite map_score_join, map_map. reflexivity.
  - apply StronglySorted_Sorted. apply non_increasing_filter.
    now apply sorted_non_increasing.
Qed.

(** X22. Every result is built from an entry that the catalogue holds at
    the position of a returned pair, a position within its bounds: the
    catalogue is never read outside [0, len(items)). *)
Theorem results_come_from_catalogue (items : list json) (pairs : list (float * Z)) :
  Forall (fun r => exists x idx entry,
              In (x, idx) pairs /\ 0 <= idx < len items /\
              nth_error items (Z.to_nat idx) = Some entry /\
              r = result (match entry with JDict d => d | _ => [] end) x)
         (join items pairs).
Proof.
  rewrite join_spec. apply Forall_forall. intros r Hr.
  apply in_map_iff in Hr. destruct Hr as ([x idx] & <- & Hp).
  apply filter_In in Hp. destruct Hp as [Hin Hr].
  apply in_range_iff in Hr.
  exists x, idx, (getitem items idx). repeat split; try lia; auto.
  unfold getitem. apply nth_error_nth'. unfold len in Hr. lia.
Qed.

End Join.

(** ** The further properties at concrete inputs *)

Lemma missing_data_path_witness :
  _data_dir (lib := Stub.library) Stub.world_without_path =
    inl (RuntimeError missing_path_msg) /\
  _load_assets (lib := Stub.library) Stub.world_without_path =
    inl (RuntimeError missing_path_msg) /\
  _startup (lib := Stub.library) Stub.world_without_path uninitialized =
    (uninitialized, Some (RuntimeError missing_path_msg)).
Proof.
  apply (missing_data_path (lib := Stub.library) Stub.world_without_path uninitialized).
  right. exists "". split; [reflexivity|left; reflexivity].
Defined.

Lemma missing_asset_file_witness :
  _load_assets (lib := Stub.library) Stub.world_without_meta =
    inl (FileNotFoundError missing_assets_msg) /\
  _startup (lib := Stub.library) Stub.world_without_meta uninitialized =
    (uninitialized, Some (FileNotFoundError missing_assets_msg)).
Proof.
  apply (missing_asset_file (lib := Stub.library)
           Stub.world_without_meta uninitialized "/data/index").
  - reflexivity.
  - right. reflexivity.
Defined.

Lemma load_success_sound_witness :
  exists raw,
    environ (Stub.world "meta3") "LOCAL_DATA_PATH" = Some raw /\ raw <> "" /\
    strip (Library := Stub.library) raw <> "" /\
    let dir := path_join (resolve (Library := Stub.library) raw) "index" in
    path_exists (Stub.world "meta3") (path_join dir "faiss.index") = true /\
    path_exists (Stub.world "meta3") (path_join dir "meta.json") = true /\
    read_index (Library := Stub.library)
               (read_bytes (Stub.world "meta3") (path_join dir "faiss.index"))
      = inr Stub.index3 /\
    json_loads (Library := Stub.library)
               (read_text (Stub.world "meta3") (path_join dir "meta.json"))
      = inr (JDict Stub.meta3) /\
    contains Stub.meta3 "items" = true.
Proof.
  apply (load_success_sound (lib := Stub.library)
           (Stub.world "meta3") Stub.index3 Stub.meta3).
  reflexivity.
Defined.

Lemma invalid_dim_is_server_fault_witness :
  run (search (@Build_State Stub.library (Some Stub.index3)
                            (Some [("items", JList Stub.items3)]))
              Stub.req_top2) =
    ([], inl (HTTPException 500 "Invalid vector dim in meta.json")).
Proof.
  apply (invalid_dim_is_server_fault (lib := Stub.library)
           Stub.index3 [("items", JList Stub.items3)] Stub.items3 Stub.req_top2).
  - reflexivity.
  - left. reflexivity.
Defined.

Lemma unconvertible_dim_escapes_witness :
  run (search (@Build_State Stub.library (Some Stub.index3)
                            (Some [("dim", JList [JInt 2]); ("items", JList Stub.items3)]))
              Stub.req_top2) = ([], inl TypeError) /\
  (forall status detail, TypeError <> HTTPException status detail).
Proof.
  apply (unconvertible_dim_escapes (lib := Stub.library)
           Stub.index3 [("dim", JList [JInt 2]); ("items", JList Stub.items3)]
           Stub.items3 Stub.req_top2 TypeError).
  - reflexivity.
  - reflexivity.
Defined.

Lemma client_error_means_configured_witness :
  exists (index : @Index Stub.library) meta items dim,
    serving Stub.state3 index meta items dim /\
    ("vector must have length 2" = String.append "vector must have length " (str dim) \/
     "vector must have length 2" = "vector contains non-finite values" \/
     "vector must have length 2" = "vector norm is 0").
Proof.
  apply (client_error_means_configured (lib := Stub.library)
           Stub.state3 {| vector := [Stub.d 1 1]; topK := 5 |}
           "vector must have length 2").
  - reflexivity.
  - reflexivity.
Defined.

Lemma oversized_element_rejected_witness :
  isfinite Stub.two_200 = true /\
  run (search Stub.state3 {| vector := [Stub.two_200; Stub.d 1 1]; topK := 5 |}) =
    ([], inl (HTTPException 400 "vector contains non-finite values")).
Proof.
  split; [reflexivity|].
  apply (oversized_element_rejected (lib := Stub.library)
           Stub.state3 Stub.index3 Stub.meta3 Stub.items3 2
           {| vector := [Stub.two_200; Stub.d 1 1]; topK := 5 |}).
  - repeat split; reflexivity.
  - reflexivity.
  - reflexivity.
Defined.

Lemma infinite_norm_searches_zero_query_witness :
  exists row,
    Forall (fun x => exists s', x = S754_zero s') row /\
    fst (run (search Stub.state3 {| vector := [Stub.two_100; of_Z 0]; topK := 5 |})) =
      [norm_called (asarray [Stub.two_100; of_Z 0]);
       search_called (lib := Stub.library) Stub.index3 [row]
                     (effective_k Stub.items3
                                  {| vector := [Stub.two_100; of_Z 0]; topK := 5 |})].
Proof.
  apply (infinite_norm_searches_zero_query (lib := Stub.library)
           Stub.state3 Stub.index3 Stub.meta3 Stub.items3 2
           {| vector := [Stub.two_100; of_Z 0]; topK := 5 |} false).
  - repeat split; reflexivity.
  - reflexivity.
  - reflexivity.
  - reflexivity.
Defined.

Lemma index_call_contract_witness :
  accepted (lib := Stub.library) 2 Stub.req_top2 = true /\
  Stub.index3 = Stub.index3 /\
  (exists row, normalized (lib := Stub.library) Stub.req_top2 = [row] /\ len row = 2) /\
  effective_k Stub.items3 Stub.req_top2 = effective_k Stub.items3 Stub.req_top2.
Proof.
  apply (index_call_contract (lib := Stub.library)
           Stub.state3 Stub.index3 Stub.meta3 Stub.items3 2 Stub.req_top2
           Stub.index3 (normalized Stub.req_top2)
           (effective_k Stub.items3 Stub.req_top2)).
  - repeat split; reflexivity.
  - change (In (search_called (lib := Stub.library) Stub.index3
                  (normalized (lib := Stub.library) Stub.req_top2)
                  (effective_k Stub.items3 Stub.req_top2))
               [norm_called (asarray (vector Stub.req_top2));
                search_called (lib := Stub.library) Stub.index3
                  (normalized (lib := Stub.library) Stub.req_top2)
                  (effective_k Stub.items3 Stub.req_top2)]).
    right. left. reflexivity.
Defined.

Lemma index_error_propagates_witness :
  run (search Stub.state0 Stub.req_top2) =
    ([norm_called (asarray (vector Stub.req_top2));
      search_called (lib := Stub.library) Stub.index3
                    (normalized (lib := Stub.library) Stub.req_top2)
                    (effective_k [] Stub.req_top2)],
     inl (LibraryError "k must be positive")).
Proof.
  apply (index_error_propagates (lib := Stub.library)
           Stub.state0 Stub.index3 Stub.meta0 [] 2 Stub.req_top2
           (LibraryError "k must be positive")).
  - repeat split; reflexivity.
  - reflexivity.
  - reflexivity.
Defined.

Lemma default_topK_is_50_witness :
  fst (run (post_search Stub.state3
                        {| body_vector := [Stub.d 3 1; Stub.d 4 1]; body_topK := None |})) =
    [norm_called (asarray [Stub.d 3 1; Stub.d 4 1]);
     search_called (lib := Stub.library) Stub.index3
                   (normalized (lib := Stub.library)
                               {| vector := [Stub.d 3 1; Stub.d 4 1]; topK := 50 |})
                   (Z.min 50 (len Stub.items3))].
Proof.
  apply (default_topK_is_50 (lib := Stub.library)
           Stub.state3 Stub.index3 Stub.meta3 Stub.items3 2
           {| body_vector := [Stub.d 3 1; Stub.d 4 1]; body_topK := None |}).
  - repeat split; reflexivity.
  - reflexivity.
  - reflexivity.
Defined.

Lemma record_fields_copied_witness :
  exists r,
    snd (run (search Stub.state3 Stub.req_top5)) =
      inr (JDict [("results",
                   JList (join Stub.items3 [] ++ JDict r
                          :: join Stub.items3 (skipn 1 Stub.pairs3)))]) /\
    (forall key, In key metadata_keys ->
       get r key = get (record Stub.items3 2) key) /\
    (forall key, In key metadata_keys ->
       contains (record Stub.items3 2) key = false -> get r key = JNull) /\
    get r "score" = JFloat (to_f64 (Stub.f 9 10)) /\
    get r "similarity" = JFloat (to_f64 (Stub.f 9 10)).
Proof.
  apply (record_fields_copied (lib := Stub.library)
           Stub.state3 Stub.index3 Stub.meta3 Stub.items3 2 Stub.req_top5
           [] (skipn 1 Stub.pairs3) (to_f64 (Stub.f 9 10)) 2
           (record Stub.items3 2)).
  - repeat split; reflexivity.
  - reflexivity.
  - reflexivity.
  - unfold len; simpl; lia.
  - reflexivity.
Defined.

Lemma empty_catalogue_empty_results_witness :
  run (search Stub.state0 Stub.req_top2) =
    ([norm_called (asarray (vector Stub.req_top2));
      search_called (lib := Stub.library) Stub.index3
                    (normalized (lib := Stub.library) Stub.req_top2) 0],
     match neighbours (lib := Stub.library) Stub.index3 [] Stub.req_top2 with
     | inl e => inl e
     | inr _ => inr (JDict [("results", JList [])])
     end).
Proof.
  apply (empty_catalogue_empty_results (lib := Stub.library)
           Stub.state0 Stub.index3 Stub.meta0 2 Stub.req_top2).
  - repeat split; reflexivity.
  - reflexivity.
Defined.

Lemma adjacent_ranking_kept_witness :
  exists ss,
    map score (join Stub.items3 Stub.pairs3) = map Some ss /\
    Sorted (fun a b => geb a b = true) ss.
Proof.
  apply (adjacent_ranking_kept Stub.items3 Stub.pairs3).
  repeat constructor.
Defined.
